(** * Ghostcloud deployment client: transactions, queries and the "metas" cache

    A shallow embedding of [src/lib/ghostcloud.ts] (message builders, the three
    write operations wrapped in [useMutation], the [list] query function), of
    [createUrl], the table and the pagination controls of the dashboard
    component, and of the drop handler of the file upload component.

    Asynchronous functions are written in a small monad that threads the
    react-query cache, records every call that leaves the module (store,
    wallet, RPC, file reader, cache invalidation) in an event log, and
    propagates thrown errors. *)

From Stdlib Require Import ZArith NArith List String Ascii DecimalString Lia.
From Stdlib.Strings Require Import Byte.
From stdpp Require Import base gmap strings list.

Open Scope string_scope.
Open Scope list_scope.

(** ** Data model *)

(** A JavaScript [Error]; only its message is observed. *)
Definition Error : Type := string.

(** The outcome of awaiting a promise: resolved with a value or rejected. *)
Inductive outcome (A : Type) : Type :=
| Resolved (a : A)
| Rejected (e : Error).
Arguments Resolved {A} a.
Arguments Rejected {A} e.

Definition is_resolved {A} (r : outcome A) : bool :=
  match r with Resolved _ => true | Rejected _ => false end.

(** A browser [File] handle; its content is only reachable through the
    [fileToArrayBuffer] helper. *)
Record File : Type := { file_name : string }.

(** [DeploymentData], the form value handed over by the modals. *)
Record DeploymentData : Type := {
  data_name : string;
  data_description : string;
  data_domain : string;
  data_memo : string;
  data_file : option File
}.

(** Generated enums carry [UNRECOGNIZED] besides their listed members. *)
Inductive ArchiveType : Type := Zip | ArchiveType_UNRECOGNIZED.
Inductive Filter_Field : Type := CREATOR | Filter_Field_UNRECOGNIZED.
Inductive Filter_Operator : Type := EQUAL | Filter_Operator_UNRECOGNIZED.

Record Archive : Type := { archive_type : ArchiveType; archive_content : list Byte.byte }.
Record Payload : Type := { payload_archive : option Archive }.

Record Meta : Type := {
  meta_creator : string;
  meta_name : string;
  meta_description : string;
  meta_domain : string
}.

(** The three messages of [MessageComposer.withTypeUrl]; a payload left
    [undefined] is [None]. *)
Inductive Msg : Type :=
| MsgCreateDeployment (meta : Meta) (payload : option Payload)
| MsgUpdateDeployment (meta : Meta) (payload : option Payload)
| MsgRemoveDeployment (creator name : string).

Definition msg_meta (m : Msg) : option Meta :=
  match m with
  | MsgCreateDeployment meta _ | MsgUpdateDeployment meta _ => Some meta
  | MsgRemoveDeployment _ _ => None
  end.

Definition msg_payload (m : Msg) : option Payload :=
  match m with
  | MsgCreateDeployment _ p | MsgUpdateDeployment _ p => p
  | MsgRemoveDeployment _ _ => None
  end.

Record Coin : Type := { coin_denom : string; coin_amount : string }.
Record StdFee : Type := { fee_amount : list Coin; fee_gas : string }.

(** The part of [DeliverTxResponse] the client looks at. *)
Record DeliverTxResponse : Type := {
  tx_code : N;
  tx_rawLog : string;
  tx_transactionHash : string
}.

Record Filter : Type := {
  filter_field : Filter_Field;
  filter_operator : Filter_Operator;
  filter_value : string
}.

Record QueryMetasRequest : Type := { req_filters : list Filter }.
Record QueryMetasResponse : Type := { resp_meta : list Meta }.

Record OfflineDirectSigner : Type := { signer_key : list Byte.byte; signer_prefix : string }.

(** ** The collaborators of the module

    Everything the module imports and calls is an oracle of the environment:
    each call has a fixed outcome, resolved or rejected. *)

Record SigningClient : Type := {
  signAndBroadcast :
    string -> list Msg -> StdFee -> option string -> outcome DeliverTxResponse
}.

Record RPCQueryClient : Type := {
  metas : QueryMetasRequest -> outcome QueryMetasResponse
}.

Record Env : Type := {
  store_getAddress : outcome (option string);
  store_getPrivateKey : outcome string;
  DirectSecp256k1Wallet_fromKey : list Byte.byte -> string -> outcome OfflineDirectSigner;
  getSigningGhostcloudClient : string -> OfflineDirectSigner -> outcome SigningClient;
  fileToArrayBuffer : File -> outcome (list Byte.byte);
  createRPCQueryClient : string -> outcome RPCQueryClient;
  GHOSTCLOUD_ADDRESS_PREFIX : string;
  GHOSTCLOUD_RPC_TARGET : string
}.

(** ** Events and the react-query cache *)

Inductive Event : Type :=
| EvGetAddress
| EvGetPrivateKey
| EvWalletFromKey (pk : list Byte.byte) (prefix : string)
| EvSigningClient (rpcEndpoint : string)
| EvFileToArrayBuffer (f : File)
| EvSignAndBroadcast (signer : string) (msgs : list Msg) (fee : StdFee)
                     (memo : option string)
                     (response : outcome DeliverTxResponse)
| EvQueryClient (rpcEndpoint : string)
| EvMetas (request : QueryMetasRequest)
| EvInvalidateQueries (queryKey : string).

(** The calls that reach the RPC endpoint. *)
Definition is_network (e : Event) : bool :=
  match e with
  | EvSigningClient _ | EvSignAndBroadcast _ _ _ _ _
  | EvQueryClient _ | EvMetas _ => true
  | _ => false
  end.

Definition is_invalidate (key : string) (e : Event) : bool :=
  match e with
  | EvInvalidateQueries k => bool_decide (k = key)
  | _ => false
  end.

Definition invalidations (key : string) (log : list Event) : nat :=
  length (List.filter (is_invalidate key) log).

(** The log holds a broadcast that the ledger answered with code zero. *)
Definition is_accepted (e : Event) : bool :=
  match e with
  | EvSignAndBroadcast _ _ _ _ (Resolved response) => (tx_code response =? 0)%N
  | _ => false
  end.

Definition broadcast_accepted (log : list Event) : bool :=
  existsb is_accepted log.

Record CacheEntry : Type := {
  entry_data : option QueryMetasResponse;
  entry_isInvalidated : bool
}.

Definition mark_invalidated (e : CacheEntry) : CacheEntry :=
  {| entry_data := entry_data e; entry_isInvalidated := true |}.

(** ** The monad of asynchronous functions *)

Definition M (A : Type) : Type :=
  gmap string CacheEntry -> list Event * gmap string CacheEntry * outcome A.

Definition ret {A} (a : A) : M A := fun c => ([], c, Resolved a).

Definition throw {A} (e : Error) : M A := fun c => ([], c, Rejected e).

Definition bind {A B} (m : M A) (f : A -> M B) : M B :=
  fun c =>
    match m c with
    | (l, c', Resolved a) =>
        match f a c' with (l', c'', r) => (l ++ l', c'', r) end
    | (l, c', Rejected e) => (l, c', Rejected e)
    end.

Notation "'await' x <- m ;; k" := (bind m (fun x => k))
  (at level 10, x name, m at level 99, k at level 200,
   format "'[v' 'await'  x  <-  m ;; '/' k ']'").

(** A call to a collaborator: logged, then its outcome. *)
Definition call {A} (ev : Event) (r : outcome A) : M A := fun c => ([ev], c, r).

Definition log_of {A} (x : list Event * gmap string CacheEntry * outcome A) :=
  x.1.1.
Definition cache_of {A} (x : list Event * gmap string CacheEntry * outcome A) :=
  x.1.2.
Definition outcome_of {A} (x : list Event * gmap string CacheEntry * outcome A) :=
  x.2.

(** [queryClient.invalidateQueries({ queryKey })]: the entry under the key,
    when there is one, is marked stale. *)
Definition invalidateQueries (queryKey : string) : M unit :=
  fun c => ([EvInvalidateQueries queryKey], alter mark_invalidated queryKey c,
            Resolved tt).

(** [useMutation({ mutationFn, onSuccess })], run on some variables:
    [onSuccess] runs once [mutationFn] has resolved, and only then. *)
Definition useMutation {V A} (mutationFn : V -> M A) (onSuccess : M unit)
    (variables : V) : M A :=
  await a <- mutationFn variables ;;
  await u <- onSuccess ;;
  ret a.

(** ** JavaScript helpers *)

(** A string or [undefined] in a condition: [undefined] and the empty string
    are falsy. *)
Definition truthy_string (s : option string) : option string :=
  match s with
  | Some "" => None
  | Some s => Some s
  | None => None
  end.

(** A number in a condition: zero is falsy. *)
Definition truthy_number (n : N) : bool := negb (n =? 0)%N.

(** A number in a template literal; a response code is a non-negative
    integer and is printed in decimal. *)
Definition number_to_string (n : N) : string :=
  NilEmpty.string_of_uint (N.to_uint n).

Definition hex_value (c : ascii) : option N :=
  let n := N_of_ascii c in
  if (48 <=? n)%N && (n <=? 57)%N then Some (n - 48)%N
  else if (97 <=? n)%N && (n <=? 102)%N then Some (n - 87)%N
  else if (65 <=? n)%N && (n <=? 70)%N then Some (n - 55)%N
  else None.

(** [Buffer.from(s, "hex")]: decoding stops at the first pair that is not
    two hexadecimal digits. *)
Fixpoint Buffer_from_hex (s : string) : list Byte.byte :=
  match s with
  | String a (String b rest) =>
      match hex_value a, hex_value b with
      | Some x, Some y =>
          byte_of_ascii (ascii_of_N (16 * x + y)) :: Buffer_from_hex rest
      | _, _ => []
      end
  | _ => []
  end.

(** ** [src/lib/ghostcloud.ts] *)

Section Ghostcloud.

Context (env : Env).

(** [store.getAddress()] and [store.getPrivateKey()]. *)
Definition getAddress : M (option string) :=
  call EvGetAddress (store_getAddress env).

Definition getPrivateKey : M string :=
  call EvGetPrivateKey (store_getPrivateKey env).

(** [createGhostcloudRpcClient]: a signer from the key, then the signing
    client bound to the RPC endpoint. *)
Definition createGhostcloudRpcClient (pk : list Byte.byte) : M SigningClient :=
  await signer <-
    call (EvWalletFromKey pk (GHOSTCLOUD_ADDRESS_PREFIX env))
         (DirectSecp256k1Wallet_fromKey env pk (GHOSTCLOUD_ADDRESS_PREFIX env)) ;;
  call (EvSigningClient (GHOSTCLOUD_RPC_TARGET env))
       (getSigningGhostcloudClient env (GHOSTCLOUD_RPC_TARGET env) signer).

(** [helpers/files] is not part of the sources at hand: [fileToArrayBuffer]
    is an oracle of the environment, and the bytes it resolves with are the
    content of the file. *)
Definition read_file (file : File) : M (list Byte.byte) :=
  call (EvFileToArrayBuffer file) (fileToArrayBuffer env file).

Definition createDeploymentMsg (data : DeploymentData) (creator : string) : M Msg :=
  await payload <-
    match data_file data with
    | Some file =>
        await buffer <- read_file file ;;
        ret (Some {| payload_archive :=
                       Some {| archive_type := Zip; archive_content := buffer |} |})
    | None => ret None
    end ;;
  ret (MsgCreateDeployment
         {| meta_creator := creator;
            meta_name := data_name data;
            meta_description := data_description data;
            meta_domain := data_domain data |}
         payload).

Definition updateDeploymentMsg (data : DeploymentData) (creator : string) : M Msg :=
  await payload <-
    match data_file data with
    | Some file =>
        await buffer <- read_file file ;;
        ret (Some {| payload_archive :=
                       Some {| archive_type := Zip; archive_content := buffer |} |})
    | None => ret None
    end ;;
  ret (MsgUpdateDeployment
         {| meta_creator := creator;
            meta_name := data_name data;
            meta_description := data_description data;
            meta_domain := data_domain data |}
         payload).

Definition removeDeploymentMsg (name creator : string) : M Msg :=
  ret (MsgRemoveDeployment creator name).

(** The fee every transaction is sent with. *)
Definition fee : StdFee :=
  {| fee_amount := [ {| coin_denom := "token"; coin_amount := "1" |} ];
     fee_gas := "100000000" |}.

Definition client_signAndBroadcast (client : SigningClient) (signer : string)
    (msgs : list Msg) (f : StdFee) (memo : option string) : M DeliverTxResponse :=
  let response := signAndBroadcast client signer msgs f memo in
  call (EvSignAndBroadcast signer msgs f memo response) response.

Definition creation_failed (response : DeliverTxResponse) : Error :=
  "Deployment creation failed with error code: "
    +:+ number_to_string (tx_code response)
    +:+ ". Raw log: " +:+ tx_rawLog response.

Definition update_failed (response : DeliverTxResponse) : Error :=
  "Deployment update failed with error code: "
    +:+ number_to_string (tx_code response)
    +:+ ". Raw log: " +:+ tx_rawLog response.

(** The mutation function of [useCreateDeployment]. *)
Definition create (data : option DeploymentData) : M DeliverTxResponse :=
  match data with
  | None => throw "Deployment data is empty."
  | Some data =>
      await address <- getAddress ;;
      match truthy_string address with
      | None => throw "Creator address is empty."
      | Some creator =>
          await key <- getPrivateKey ;;
          await client <- createGhostcloudRpcClient (Buffer_from_hex key) ;;
          await msg <- createDeploymentMsg data creator ;;
          await response <-
            client_signAndBroadcast client creator [msg] fee (Some (data_memo data)) ;;
          if truthy_number (tx_code response)
          then throw (creation_failed response)
          else ret response
      end
  end.

(** The mutation function of [useUpdateDeployment]. *)
Definition update (data : option DeploymentData) : M DeliverTxResponse :=
  match data with
  | None => throw "Deployment data is empty."
  | Some data =>
      await address <- getAddress ;;
      match truthy_string address with
      | None => throw "Creator address is empty."
      | Some creator =>
          await key <- getPrivateKey ;;
          await client <- createGhostcloudRpcClient (Buffer_from_hex key) ;;
          await msg <- updateDeploymentMsg data creator ;;
          await response <-
            client_signAndBroadcast client creator [msg] fee (Some (data_memo data)) ;;
          if truthy_number (tx_code response)
          then throw (update_failed response)
          else ret response
      end
  end.

(** The mutation function of [useRemoveDeployment]; it reports a rejection
    with the text of [update]. *)
Definition remove (name : string) : M DeliverTxResponse :=
  await address <- getAddress ;;
  match truthy_string address with
  | None => throw "Creator address is empty."
  | Some creator =>
      await key <- getPrivateKey ;;
      await client <- createGhostcloudRpcClient (Buffer_from_hex key) ;;
      await msg <- removeDeploymentMsg name creator ;;
      await response <- client_signAndBroadcast client creator [msg] fee None ;;
      if truthy_number (tx_code response)
      then throw (update_failed response)
      else ret response
  end.

(** The three hooks: the mutation function with its [onSuccess]. *)
Definition useCreateDeployment : option DeploymentData -> M DeliverTxResponse :=
  useMutation create (invalidateQueries "metas").

Definition useUpdateDeployment : option DeploymentData -> M DeliverTxResponse :=
  useMutation update (invalidateQueries "metas").

Definition useRemoveDeployment : string -> M DeliverTxResponse :=
  useMutation remove (invalidateQueries "metas").

(** The query function of [useFetchMetas]; without an address it falls
    through and resolves with [undefined]. *)
Definition list_metas : M (option QueryMetasResponse) :=
  await address <- getAddress ;;
  match truthy_string address with
  | Some address =>
      await client <-
        call (EvQueryClient (GHOSTCLOUD_RPC_TARGET env))
             (createRPCQueryClient env (GHOSTCLOUD_RPC_TARGET env)) ;;
      let filter := {| filter_field := CREATOR;
                       filter_operator := EQUAL;
                       filter_value := address |} in
      let request := {| req_filters := [filter] |} in
      await response <- call (EvMetas request) (metas client request) ;;
      ret (Some response)
  | None => ret None
  end.

End Ghostcloud.

(** ** The dashboard component *)

Section Dashboard.

(** [config/ghostcloud-chain] is not part of the sources at hand: its two
    URL constants are parameters. *)
Context (GHOSTCLOUD_URL_SCHEME GHOSTCLOUD_URL_DOMAIN : string).

Definition createUrl (name address : string) : string :=
  GHOSTCLOUD_URL_SCHEME +:+ "://" +:+ name +:+ "-" +:+ address +:+ "."
    +:+ GHOSTCLOUD_URL_DOMAIN.

End Dashboard.

(** The pagination controls are rendered for more than one page; each arrow
    is disabled at its end of the range. *)
Definition showPagination (pageCount : Z) : bool := (1 <? pageCount)%Z.
Definition previousDisabled (currentPage : Z) : bool := (currentPage =? 1)%Z.
Definition nextDisabled (currentPage pageCount : Z) : bool :=
  (currentPage =? pageCount)%Z.

(** ** Pagination of the fetched result set *)

Inductive Direction : Type := prev | next.

Record Page : Type := {
  page_items : list Meta;
  currentPageNumber : Z;
  totalPageCount : Z
}.

Section Pagination.

(** Modelled from the spec: the page size, a client-side constant of the
    paginated [useFetchMetas] hook, which the dashboard calls and which is
    missing from the sources at hand. *)
Context (pageSize : positive).

(** Modelled from the spec: the number of pages of the paginated
    [useFetchMetas], missing from the sources at hand; the fetched set is cut
    into pages of [pageSize] items. *)
Definition pageCount (fetched : list Meta) : Z :=
  (Z.of_nat (length fetched) + Z.pos pageSize - 1) / Z.pos pageSize.

(** Modelled from the spec: the clamp of the paginated [useFetchMetas],
    missing from the sources at hand; navigation clamps at
    [1, totalPageCount]. *)
Definition clampPage (total page : Z) : Z := Z.max 1 (Z.min page total).

(** Modelled from the spec: the content of a page of the paginated
    [useFetchMetas], missing from the sources at hand; a pure function of the
    fetched set and the page index. *)
Definition pageContent (fetched : list Meta) (page : Z) : list Meta :=
  take (Pos.to_nat pageSize)
       (drop (Z.to_nat ((page - 1) * Z.pos pageSize)) fetched).

(** Modelled from the spec: [listDeployments] over the already fetched set,
    as the paginated [useFetchMetas] (missing from the sources at hand) is
    specified; a request beyond the bounds is clamped, not an error. *)
Definition listDeployments (fetched : list Meta) (page : Z) : Page :=
  let total := pageCount fetched in
  let current := clampPage total page in
  {| page_items := pageContent fetched current;
     currentPageNumber := current;
     totalPageCount := total |}.

(** Modelled from the spec: [handlePageClick] of the paginated
    [useFetchMetas], missing from the sources at hand; the dashboard calls it
    with ["prev"] and ["next"]. *)
Definition handlePageClick (fetched : list Meta) (currentPage : Z)
    (direction : Direction) : Page :=
  match direction with
  | prev => listDeployments fetched (currentPage - 1)
  | next => listDeployments fetched (currentPage + 1)
  end.

End Pagination.

(** ** The write operations as one surface *)

Inductive Write : Type :=
| CreateDeployment (request : option DeploymentData)
| UpdateDeployment (request : option DeploymentData)
| RemoveDeployment (name : string).

Definition execute (env : Env) (w : Write) : M DeliverTxResponse :=
  match w with
  | CreateDeployment request => useCreateDeployment env request
  | UpdateDeployment request => useUpdateDeployment env request
  | RemoveDeployment name => useRemoveDeployment env name
  end.

(** The opening words of the rejection message of each operation, as the
    three template literals have them. *)
Definition rejection_text (w : Write) : string :=
  match w with
  | CreateDeployment _ => "Deployment creation failed with error code: "
  | UpdateDeployment _ => "Deployment update failed with error code: "
  | RemoveDeployment _ => "Deployment update failed with error code: "
  end.

(** The staleness flag of a cache entry, when the key has one. *)
Definition stale (c : gmap string CacheEntry) (key : string) : option bool :=
  entry_isInvalidated <$> c !! key.

(** What a run produced: its log, the cache it left and its outcome. *)
Definition Run (A : Type) : Type :=
  (list Event * gmap string CacheEntry * outcome A)%type.

(** What the three mutation functions have in common: the cache is returned
    as it was received, nothing is invalidated, and the function resolves
    exactly when the log holds a broadcast answered with code zero. *)
Definition plain_write (c : gmap string CacheEntry)
    (r : Run DeliverTxResponse) : Prop :=
  cache_of r = c /\
  invalidations "metas" (log_of r) = 0 /\
  is_resolved (outcome_of r) = broadcast_accepted (log_of r).

(** The requests sent to the [metas] query during a run, in order. *)
Definition queries (log : list Event) : list QueryMetasRequest :=
  omap (fun e => match e with EvMetas request => Some request | _ => None end)
       log.

(** The endpoint keeps to the filters: every item of an answer passes every
    filter of its request. *)
Definition passes (f : Filter) (m : Meta) : bool :=
  match filter_field f, filter_operator f with
  | CREATOR, EQUAL => String.eqb (meta_creator m) (filter_value f)
  | _, _ => true
  end.

Definition honours_filters (client : RPCQueryClient) : Prop :=
  forall request response,
    metas client request = Resolved response ->
    forall m f, In m (resp_meta response) -> In f (req_filters request) ->
                passes f m = true.

(** ** Sample environments *)

Definition sample_response (code : N) (rawLog : string) : DeliverTxResponse :=
  {| tx_code := code; tx_rawLog := rawLog; tx_transactionHash := "9F3C" |}.

Definition sample_env (address : option string) (code : N) (rawLog : string)
    : Env :=
  {| store_getAddress := Resolved address;
     store_getPrivateKey := Resolved "00ff";
     DirectSecp256k1Wallet_fromKey := fun pk prefix =>
       Resolved {| signer_key := pk; signer_prefix := prefix |};
     getSigningGhostcloudClient := fun _ _ =>
       Resolved {| signAndBroadcast := fun _ _ _ _ =>
                     Resolved (sample_response code rawLog) |};
     fileToArrayBuffer := fun _ => Resolved [x50; x4b; x03; x04];
     createRPCQueryClient := fun _ =>
       Resolved {| metas := fun request =>
                     Resolved {| resp_meta :=
                       [ {| meta_creator :=
                              match req_filters request with
                              | f :: _ => filter_value f
                              | [] => ""
                              end;
                            meta_name := "site1";
                            meta_description := "";
                            meta_domain := "" |} ] |} |};
     GHOSTCLOUD_ADDRESS_PREFIX := "gc";
     GHOSTCLOUD_RPC_TARGET := "http://localhost:26657" |}.

Definition site1 (file : option File) : DeploymentData :=
  {| data_name := "site1";
     data_description := "first site";
     data_domain := "site1.example.com";
     data_memo := "";
     data_file := file |}.

Definition site (name : string) : Meta :=
  {| meta_creator := "cosmos1abc"; meta_name := name;
     meta_description := ""; meta_domain := "" |}.

Definition three_sites : list Meta := [site "site1"; site "site2"; site "site3"].

Definition fresh_cache : gmap string CacheEntry :=
  {[ "metas" := {| entry_data := Some {| resp_meta := [] |};
                   entry_isInvalidated := false |} ]}.

(** ** What a write asks for, and what a log shows *)

Definition msg_creator (m : Msg) : string :=
  match m with
  | MsgCreateDeployment meta _ | MsgUpdateDeployment meta _ => meta_creator meta
  | MsgRemoveDeployment creator _ => creator
  end.

Definition msg_name (m : Msg) : string :=
  match m with
  | MsgCreateDeployment meta _ | MsgUpdateDeployment meta _ => meta_name meta
  | MsgRemoveDeployment _ name => name
  end.

(** The message of a write is of the kind of the write. *)
Definition msg_for (w : Write) (m : Msg) : bool :=
  match w, m with
  | CreateDeployment _, MsgCreateDeployment _ _ => true
  | UpdateDeployment _, MsgUpdateDeployment _ _ => true
  | RemoveDeployment _, MsgRemoveDeployment _ _ => true
  | _, _ => false
  end.

Definition write_name (w : Write) : option string :=
  match w with
  | CreateDeployment request | UpdateDeployment request => data_name <$> request
  | RemoveDeployment name => Some name
  end.

Definition write_memo (w : Write) : option string :=
  match w with
  | CreateDeployment request | UpdateDeployment request => data_memo <$> request
  | RemoveDeployment _ => None
  end.

Definition write_file (w : Write) : option File :=
  match w with
  | CreateDeployment request | UpdateDeployment request =>
      match request with Some data => data_file data | None => None end
  | RemoveDeployment _ => None
  end.

Definition is_broadcast (e : Event) : bool :=
  match e with EvSignAndBroadcast _ _ _ _ _ => true | _ => false end.

Definition is_file_read (e : Event) : bool :=
  match e with EvFileToArrayBuffer _ => true | _ => false end.

(** The calls the query function may make. *)
Definition is_read_call (e : Event) : bool :=
  match e with
  | EvGetAddress | EvQueryClient _ | EvMetas _ => true
  | _ => false
  end.

(** ** What the dashboard renders *)

(** A row of the table: the three cells of the deployment, the target of
    its link and the text of the link. *)
Record Row : Type := {
  row_name : string;
  row_description : string;
  row_domain : string;
  row_href : string;
  row_label : string
}.

(** The pagination controls: the two arrows and the page info between. *)
Record Pager : Type := {
  pager_previousDisabled : bool;
  pager_info : Z * Z;
  pager_nextDisabled : bool
}.

Inductive Body : Type :=
| ErrorNotice (text : string)
| DeploymentTable (rows : list Row) (pager : option Pager).

Section DashboardView.

(** [helpers/address] and [config/ghostcloud-chain] are not part of the
    sources at hand: [truncateAddress] and the URL constants are
    parameters. *)
Context (GHOSTCLOUD_URL_SCHEME GHOSTCLOUD_URL_DOMAIN : string).
Context (truncateAddress : string -> Z -> string).

(** The address state after the effect has run: [addr ?? ""]. *)
Definition fetchAddress (addr : option string) : string :=
  match addr with Some a => a | None => "" end.

Definition table_rows (metas : QueryMetasResponse) (address : string) : list Row :=
  List.map
    (fun meta =>
       {| row_name := meta_name meta;
          row_description := meta_description meta;
          row_domain := meta_domain meta;
          row_href :=
            createUrl GHOSTCLOUD_URL_SCHEME GHOSTCLOUD_URL_DOMAIN
                      (meta_name meta) address +:+ "/index.html";
          row_label :=
            createUrl GHOSTCLOUD_URL_SCHEME GHOSTCLOUD_URL_DOMAIN
                      (meta_name meta) (truncateAddress address 4) |})
    (resp_meta metas).

Definition pagination (currentPage pageCount : Z) : option Pager :=
  if showPagination pageCount
  then Some {| pager_previousDisabled := previousDisabled currentPage;
               pager_info := (currentPage, pageCount);
               pager_nextDisabled := nextDisabled currentPage pageCount |}
  else None.

(** What is rendered under the spinner: the table with its controls when
    there is data, the notice otherwise. *)
Definition Dashboard_body (metas : option QueryMetasResponse) (address : string)
    (currentPage pageCount : Z) : Body :=
  match metas with
  | Some metas =>
      DeploymentTable (table_rows metas address)
                      (pagination currentPage pageCount)
  | None => ErrorNotice "Error fetching deployments. Is the backend online?"
  end.

End DashboardView.

(** ** [src/components/file-upload.tsx] *)

(** [onDrop]: the field of the given name is set to the first accepted file,
    [undefined] when none was accepted; the result is the call made to
    [setFieldValue]. *)
Definition onDrop (field_name : string) (acceptedFiles : list File)
    : string * option File :=
  (field_name, head acceptedFiles).

(** An environment in which chosen collaborators fail. *)
Definition failing_env (wallet_ok client_ok file_ok answer_ok : bool) : Env :=
  {| store_getAddress := Resolved (Some "cosmos1abc");
     store_getPrivateKey := Resolved "00ff";
     DirectSecp256k1Wallet_fromKey := fun pk prefix =>
       if wallet_ok then Resolved {| signer_key := pk; signer_prefix := prefix |}
       else Rejected "invalid private key";
     getSigningGhostcloudClient := fun _ _ =>
       if client_ok
       then Resolved {| signAndBroadcast := fun _ _ _ _ =>
                          if answer_ok then Resolved (sample_response 0 "")
                          else Rejected "socket hang up" |}
       else Rejected "connect ECONNREFUSED";
     fileToArrayBuffer := fun _ =>
       if file_ok then Resolved [x50; x4b; x03; x04]
       else Rejected "file could not be read";
     createRPCQueryClient := fun _ =>
       if client_ok
       then Resolved {| metas := fun _ =>
                          if answer_ok then Resolved {| resp_meta := [] |}
                          else Rejected "socket hang up" |}
       else Rejected "connect ECONNREFUSED";
     GHOSTCLOUD_ADDRESS_PREFIX := "gc";
     GHOSTCLOUD_RPC_TARGET := "http://localhost:26657" |}.

Definition site_zip : File := {| file_name := "site.zip" |}.

(** A query client that applies the filters of a request to a fixed set of
    deployments, and an environment around it. *)
Definition filtering_client (items : list Meta) : RPCQueryClient :=
  {| metas := fun request =>
       Resolved {| resp_meta :=
         List.filter
           (fun m => forallb (fun f => passes f m) (req_filters request))
           items |} |}.

Definition filtering_env : Env :=
  {| store_getAddress := Resolved (Some "cosmos1abc");
     store_getPrivateKey := Resolved "00ff";
     DirectSecp256k1Wallet_fromKey := fun pk prefix =>
       Resolved {| signer_key := pk; signer_prefix := prefix |};
     getSigningGhostcloudClient := fun _ _ => Rejected "connect ECONNREFUSED";
     fileToArrayBuffer := fun _ => Resolved [];
     createRPCQueryClient := fun _ =>
       Resolved (filtering_client
                   ({| meta_creator := "cosmos1xyz"; meta_name := "other";
                       meta_description := ""; meta_domain := "" |}
                    :: three_sites));
     GHOSTCLOUD_ADDRESS_PREFIX := "gc";
     GHOSTCLOUD_RPC_TARGET := "http://localhost:26657" |}.

(** ** Reasoning about runs *)

Ltac unfold_run :=
  unfold useCreateDeployment, useUpdateDeployment, useRemoveDeployment,
    useMutation, create, update, remove, list_metas,
    createDeploymentMsg, updateDeploymentMsg, removeDeploymentMsg,
    createGhostcloudRpcClient, client_signAndBroadcast, read_file,
    getAddress, getPrivateKey, invalidateQueries, truthy_number,
    creation_failed, update_failed,
    bind, call, ret, throw, log_of, cache_of, outcome_of in *.

(** One case distinction on a scrutinee that holds no other one: the
    outcome of the next call, or the test on the response code. *)
Ltac case_step :=
  match goal with
  | |- context [match ?x with _ => _ end] =>
      lazymatch x with
      | context [match _ with _ => _ end] => fail
      | _ => destruct x eqn:?; simpl in *
      end
  end.

(** Close a goal by the two cases of the test on the response code. *)
Ltac code_cases :=
  repeat split; auto;
  match goal with
  | H : negb ?b = _ |- _ => destruct b eqn:?; simpl in *; congruence
  end.

(** Close a goal in which the two tests on the response code agree or
    contradict each other. *)
Ltac code_agrees :=
  first
    [ reflexivity
    | match goal with
      | H : negb ?b = _, H' : ?b = _ |- _ => rewrite H' in H; discriminate H
      end ].

(** Find the broadcast among the events of a finished run. *)
Ltac find_broadcast :=
  intros;
  repeat match goal with
         | H : _ \/ _ |- _ => destruct H
         | H : False |- _ => destruct H
         | H : In _ _ |- _ => simpl in H
         | H : @eq Event _ _ |- _ => first [discriminate H | injection H as; subst]
         end.

(** Close what is left once the failing call has been found in the log. *)
Ltac failure_found :=
  try match goal with
      | Hall : forall s, getSigningGhostcloudClient _ _ s = _,
        H : getSigningGhostcloudClient _ _ ?s0 = _ |- _ => specialize (Hall s0)
      end;
  repeat split; first [reflexivity | congruence | (left; reflexivity)
                      | (right; left; reflexivity)
                      | (do 2 right; left; reflexivity)
                      | (do 3 right; left; reflexivity) ].

Lemma truthy_string_None (a : option string) :
  truthy_string a = None <-> a = None \/ a = Some "".
Proof.
  destruct a as [[|ch s]|]; simpl; split; intros H; auto;
    try discriminate; destruct H; discriminate.
Qed.

Lemma truthy_string_Some (a : option string) (s : string) :
  truthy_string a = Some s <-> a = Some s /\ s <> "".
Proof.
  destruct a as [[|ch r]|]; simpl; split; intros H;
    try discriminate; try (destruct H; discriminate).
  - destruct H as [H Hne]. inversion H; subst. congruence.
  - inversion H; subst. split; [reflexivity | discriminate].
  - destruct H as [H _]. exact H.
Qed.

(** ** Missing creator *)

(** C3: when the store resolves an empty creator address ([undefined] or the
    empty string), createDeployment and updateDeployment, on a request that is
    not null, and removeDeployment are rejected with the missing-creator
    error; the only call made is the address lookup, so no signing client is
    created, nothing is broadcast and the cache is left as it was. *)
Theorem empty_creator_rejected_without_network
    (env : Env) (c : gmap string CacheEntry) (a : option string)
    (data : DeploymentData) (name : string) :
  store_getAddress env = Resolved a ->
  a = None \/ a = Some "" ->
  useCreateDeployment env (Some data) c
    = ([EvGetAddress], c, Rejected "Creator address is empty.") /\
  useUpdateDeployment env (Some data) c
    = ([EvGetAddress], c, Rejected "Creator address is empty.") /\
  useRemoveDeployment env name c
    = ([EvGetAddress], c, Rejected "Creator address is empty.") /\
  existsb is_network (log_of (useCreateDeployment env (Some data) c)) = false /\
  existsb is_network (log_of (useUpdateDeployment env (Some data) c)) = false /\
  existsb is_network (log_of (useRemoveDeployment env name c)) = false.
Proof.
  intros Haddr Hempty. apply truthy_string_None in Hempty.
  assert (Hc : useCreateDeployment env (Some data) c
               = ([EvGetAddress], c, Rejected "Creator address is empty.")).
  { unfold_run. rewrite Haddr. simpl. rewrite Hempty. reflexivity. }
  assert (Hu : useUpdateDeployment env (Some data) c
               = ([EvGetAddress], c, Rejected "Creator address is empty.")).
  { unfold_run. rewrite Haddr. simpl. rewrite Hempty. reflexivity. }
  assert (Hr : useRemoveDeployment env name c
               = ([EvGetAddress], c, Rejected "Creator address is empty.")).
  { unfold_run. rewrite Haddr. simpl. rewrite Hempty. reflexivity. }
  rewrite Hc, Hu, Hr. repeat split; reflexivity.
Qed.

Lemma empty_creator_rejected_without_network_witness :
  useCreateDeployment (sample_env (Some "") 0 "") (Some (site1 None)) fresh_cache
    = ([EvGetAddress], fresh_cache, Rejected "Creator address is empty.") /\
  useRemoveDeployment (sample_env (Some "") 0 "") "site1" fresh_cache
    = ([EvGetAddress], fresh_cache, Rejected "Creator address is empty.").
Proof.
  destruct (empty_creator_rejected_without_network
              (sample_env (Some "") 0 "") fresh_cache (Some "")
              (site1 None) "site1" eq_refl (or_intror eq_refl))
    as (Hc & _ & Hr & _).
  split; [exact Hc | exact Hr].
Defined.

(** ** The mutation functions leave the cache alone *)

Lemma create_plain env data c : plain_write c (create env data c).
Proof.
  unfold plain_write, invalidations, broadcast_accepted.
  destruct data as [data|]; unfold_run; simpl; auto.
  repeat case_step; auto; code_cases.
Qed.

Lemma update_plain env data c : plain_write c (update env data c).
Proof.
  unfold plain_write, invalidations, broadcast_accepted.
  destruct data as [data|]; unfold_run; simpl; auto.
  repeat case_step; auto; code_cases.
Qed.

Lemma remove_plain env name c : plain_write c (remove env name c).
Proof.
  unfold plain_write, invalidations, broadcast_accepted.
  unfold_run; simpl. repeat case_step; auto; code_cases.
Qed.

(** A null request is turned away before the address is even looked up. *)
Lemma null_request_rejected env c :
  useCreateDeployment env None c = ([], c, Rejected "Deployment data is empty.") /\
  useUpdateDeployment env None c = ([], c, Rejected "Deployment data is empty.").
Proof. split; reflexivity. Qed.

Example Buffer_from_hex_key : Buffer_from_hex "00fF1ag0" = [x00; xff; x1a].
Proof. reflexivity. Qed.

Example number_to_string_samples :
  number_to_string 0 = "0" /\ number_to_string 1105 = "1105".
Proof. split; reflexivity. Qed.

(** ** The hooks: invalidation on success only *)

Lemma invalidations_app key (l l' : list Event) :
  invalidations key (l ++ l') = invalidations key l + invalidations key l'.
Proof.
  unfold invalidations. rewrite List.filter_app, length_app. reflexivity.
Qed.

Lemma broadcast_accepted_app (l l' : list Event) :
  broadcast_accepted (l ++ l') = broadcast_accepted l || broadcast_accepted l'.
Proof. unfold broadcast_accepted. apply existsb_app. Qed.

(** A hook runs its mutation function and, once that has resolved, appends
    one invalidation of "metas". *)
Lemma useMutation_run {V} (fn : V -> M DeliverTxResponse) (v : V) c :
  useMutation fn (invalidateQueries "metas") v c =
    match fn v c with
    | (l, c', Resolved a) =>
        (l ++ [EvInvalidateQueries "metas"],
         alter mark_invalidated "metas" c', Resolved a)
    | (l, c', Rejected e) => (l, c', Rejected e)
    end.
Proof.
  unfold useMutation, invalidateQueries, bind, ret.
  destruct (fn v c) as [[l c'] [a|e]]; reflexivity.
Qed.

Lemma useMutation_invalidates {V} (fn : V -> M DeliverTxResponse) (v : V) c :
  plain_write c (fn v c) ->
  is_resolved (outcome_of (useMutation fn (invalidateQueries "metas") v c))
    = broadcast_accepted
        (log_of (useMutation fn (invalidateQueries "metas") v c)) /\
  invalidations "metas"
      (log_of (useMutation fn (invalidateQueries "metas") v c))
    = (if is_resolved
            (outcome_of (useMutation fn (invalidateQueries "metas") v c))
       then 1 else 0) /\
  cache_of (useMutation fn (invalidateQueries "metas") v c)
    = (if is_resolved
            (outcome_of (useMutation fn (invalidateQueries "metas") v c))
       then alter mark_invalidated "metas" c else c).
Proof.
  rewrite useMutation_run. unfold plain_write, log_of, cache_of, outcome_of.
  destruct (fn v c) as [[l c'] [a|e]]; simpl; intros (Hc & Hi & Hr); subst c'.
  - rewrite invalidations_app, broadcast_accepted_app, Hi, <- Hr.
    repeat split; reflexivity.
  - rewrite <- Hr, Hi. repeat split; reflexivity.
Qed.

Lemma execute_plain env (w : Write) c :
  match w with
  | CreateDeployment request => plain_write c (create env request c)
  | UpdateDeployment request => plain_write c (update env request c)
  | RemoveDeployment name => plain_write c (remove env name c)
  end.
Proof.
  destruct w; [apply create_plain | apply update_plain | apply remove_plain].
Qed.

(** C1: for each of the three write operations, run on a cache whose "metas"
    entry is fresh, the operation succeeds exactly when its broadcast was
    answered with code zero; "metas" is invalidated once when it succeeds and
    not at all when it fails, at whatever stage; and the staleness flag of the
    entry afterwards equals (write succeeded). *)
Theorem metas_invalidated_iff_write_succeeded
    (env : Env) (w : Write) (c0 : gmap string CacheEntry)
    (d : option QueryMetasResponse) :
  let c := <["metas" := {| entry_data := d; entry_isInvalidated := false |}]> c0 in
  is_resolved (outcome_of (execute env w c))
    = broadcast_accepted (log_of (execute env w c)) /\
  invalidations "metas" (log_of (execute env w c))
    = (if is_resolved (outcome_of (execute env w c)) then 1 else 0) /\
  stale (cache_of (execute env w c)) "metas"
    = Some (is_resolved (outcome_of (execute env w c))).
Proof.
  intros c.
  assert (H : is_resolved (outcome_of (execute env w c))
                = broadcast_accepted (log_of (execute env w c)) /\
              invalidations "metas" (log_of (execute env w c))
                = (if is_resolved (outcome_of (execute env w c)) then 1 else 0) /\
              cache_of (execute env w c)
                = (if is_resolved (outcome_of (execute env w c))
                   then alter mark_invalidated "metas" c else c)).
  { pose proof (execute_plain env w c) as Hp.
    destruct w; simpl;
      unfold useCreateDeployment, useUpdateDeployment, useRemoveDeployment;
      apply useMutation_invalidates; exact Hp. }
  destruct H as (Hr & Hi & Hc). repeat split; [exact Hr | exact Hi |].
  rewrite Hc. unfold stale, c.
  destruct (is_resolved (outcome_of (execute env w _))).
  - rewrite lookup_alter_eq, lookup_insert_eq. reflexivity.
  - rewrite lookup_insert_eq. reflexivity.
Qed.

(** The spec's scenario: removing "site1" is rejected with code 5 and the
    log "not found"; the cache entry stays fresh. *)
Example remove_site1_rejected :
  let r := execute (sample_env (Some "cosmos1abc") 5 "not found")
                   (RemoveDeployment "site1") fresh_cache in
  outcome_of r
    = Rejected "Deployment update failed with error code: 5. Raw log: not found" /\
  invalidations "metas" (log_of r) = 0 /\
  stale (cache_of r) "metas" = Some false.
Proof. vm_compute. repeat split; reflexivity. Qed.

Example create_site1_accepted :
  let r := execute (sample_env (Some "cosmos1abc") 0 "")
                   (CreateDeployment (Some (site1 None))) fresh_cache in
  outcome_of r = Resolved (sample_response 0 "") /\
  invalidations "metas" (log_of r) = 1 /\
  stale (cache_of r) "metas" = Some true.
Proof. vm_compute. repeat split; reflexivity. Qed.

(** ** The answer of the ledger *)

(** The outcome and the broadcasts of a hook are those of its mutation
    function. *)
Lemma useMutation_outcome {V} (fn : V -> M DeliverTxResponse) (v : V) c :
  outcome_of (useMutation fn (invalidateQueries "metas") v c)
    = outcome_of (fn v c).
Proof.
  rewrite useMutation_run. unfold outcome_of.
  destruct (fn v c) as [[l c'] [a|e]]; reflexivity.
Qed.

Lemma useMutation_broadcast {V} (fn : V -> M DeliverTxResponse) (v : V) c
    signer msgs f memo response :
  In (EvSignAndBroadcast signer msgs f memo response)
     (log_of (useMutation fn (invalidateQueries "metas") v c)) ->
  In (EvSignAndBroadcast signer msgs f memo response) (log_of (fn v c)).
Proof.
  rewrite useMutation_run. unfold log_of.
  destruct (fn v c) as [[l c'] [a|e]]; simpl; auto.
  rewrite in_app_iff; simpl. intros [H|[H|[]]]; [exact H | discriminate].
Qed.

Lemma create_answer env data c signer msgs f memo response :
  In (EvSignAndBroadcast signer msgs f memo (Resolved response))
     (log_of (create env data c)) ->
  outcome_of (create env data c) =
    if (tx_code response =? 0)%N then Resolved response
    else Rejected ("Deployment creation failed with error code: "
                   +:+ number_to_string (tx_code response)
                   +:+ ". Raw log: " +:+ tx_rawLog response).
Proof.
  destruct data as [data|]; unfold_run; simpl; [|intros []].
  repeat case_step; find_broadcast; code_agrees.
Qed.

Lemma update_answer env data c signer msgs f memo response :
  In (EvSignAndBroadcast signer msgs f memo (Resolved response))
     (log_of (update env data c)) ->
  outcome_of (update env data c) =
    if (tx_code response =? 0)%N then Resolved response
    else Rejected ("Deployment update failed with error code: "
                   +:+ number_to_string (tx_code response)
                   +:+ ". Raw log: " +:+ tx_rawLog response).
Proof.
  destruct data as [data|]; unfold_run; simpl; [|intros []].
  repeat case_step; find_broadcast; code_agrees.
Qed.

Lemma remove_answer env name c signer msgs f memo response :
  In (EvSignAndBroadcast signer msgs f memo (Resolved response))
     (log_of (remove env name c)) ->
  outcome_of (remove env name c) =
    if (tx_code response =? 0)%N then Resolved response
    else Rejected ("Deployment update failed with error code: "
                   +:+ number_to_string (tx_code response)
                   +:+ ". Raw log: " +:+ tx_rawLog response).
Proof.
  unfold_run; simpl.
  repeat case_step; find_broadcast; code_agrees.
Qed.

(** C2: whenever the broadcast of a write operation is answered with a
    response, the operation resolves with that very response if its code is
    zero, and otherwise is rejected with an error whose message carries the
    code in decimal and the raw log of the response unchanged. *)
Theorem answer_decides_outcome
    (env : Env) (w : Write) (c : gmap string CacheEntry)
    (signer : string) (msgs : list Msg) (f : StdFee) (memo : option string)
    (response : DeliverTxResponse) :
  In (EvSignAndBroadcast signer msgs f memo (Resolved response))
     (log_of (execute env w c)) ->
  outcome_of (execute env w c) =
    if (tx_code response =? 0)%N then Resolved response
    else Rejected (rejection_text w
                   +:+ number_to_string (tx_code response)
                   +:+ ". Raw log: " +:+ tx_rawLog response).
Proof.
  destruct w; simpl;
    unfold useCreateDeployment, useUpdateDeployment, useRemoveDeployment;
    intros H; apply useMutation_broadcast in H; rewrite useMutation_outcome.
  - eapply create_answer; exact H.
  - eapply update_answer; exact H.
  - eapply remove_answer; exact H.
Qed.

Lemma answer_decides_outcome_witness :
  outcome_of (execute (sample_env (Some "cosmos1abc") 5 "not found")
                      (UpdateDeployment (Some (site1 None))) fresh_cache)
    = Rejected ("Deployment update failed with error code: "
                +:+ number_to_string 5 +:+ ". Raw log: " +:+ "not found").
Proof.
  apply (answer_decides_outcome
           (sample_env (Some "cosmos1abc") 5 "not found")
           (UpdateDeployment (Some (site1 None))) fresh_cache
           "cosmos1abc"
           [MsgUpdateDeployment
              {| meta_creator := "cosmos1abc"; meta_name := "site1";
                 meta_description := "first site";
                 meta_domain := "site1.example.com" |} None]
           fee (Some "") (sample_response 5 "not found")).
  vm_compute. do 4 right. left. reflexivity.
Defined.

(** C10: when the broadcast of removeDeployment is answered with a non-zero
    code, the error it is rejected with begins with the words of the update
    operation, "Deployment update failed with error code:", and is the very
    message updateDeployment is rejected with on the same response. *)
Theorem remove_rejection_reads_as_update
    (env : Env) (name : string) (c : gmap string CacheEntry)
    (signer : string) (msgs : list Msg) (f : StdFee) (memo : option string)
    (response : DeliverTxResponse) :
  In (EvSignAndBroadcast signer msgs f memo (Resolved response))
     (log_of (execute env (RemoveDeployment name) c)) ->
  tx_code response <> 0%N ->
  exists e : Error,
    outcome_of (execute env (RemoveDeployment name) c) = Rejected e /\
    String.prefix "Deployment update failed with error code:" e = true /\
    forall env' request c' signer' msgs' f' memo',
      In (EvSignAndBroadcast signer' msgs' f' memo' (Resolved response))
         (log_of (execute env' (UpdateDeployment request) c')) ->
      outcome_of (execute env' (UpdateDeployment request) c') = Rejected e.
Proof.
  simpl. unfold useRemoveDeployment, useUpdateDeployment.
  intros Hin Hcode. apply N.eqb_neq in Hcode.
  apply useMutation_broadcast in Hin.
  eexists. split; [|split].
  - rewrite useMutation_outcome, (remove_answer _ _ _ _ _ _ _ _ Hin), Hcode.
    reflexivity.
  - reflexivity.
  - intros env' request c' signer' msgs' f' memo' Hin'.
    apply useMutation_broadcast in Hin'.
    rewrite useMutation_outcome, (update_answer _ _ _ _ _ _ _ _ Hin'), Hcode.
    reflexivity.
Qed.

Lemma remove_rejection_reads_as_update_witness :
  exists e : Error,
    outcome_of (execute (sample_env (Some "cosmos1abc") 5 "not found")
                        (RemoveDeployment "site1") fresh_cache) = Rejected e /\
    String.prefix "Deployment update failed with error code:" e = true.
Proof.
  destruct (remove_rejection_reads_as_update
              (sample_env (Some "cosmos1abc") 5 "not found") "site1" fresh_cache
              "cosmos1abc" [MsgRemoveDeployment "cosmos1abc" "site1"]
              fee None (sample_response 5 "not found"))
    as (e & Hout & Hpre & _).
  - vm_compute. do 4 right. left. reflexivity.
  - discriminate.
  - exists e. split; [exact Hout | exact Hpre].
Defined.

(** ** The message builders *)

(** C5: for every request and creator, createDeploymentMsg builds a message
    unless reading the attached file fails (the only way it can be rejected,
    and with the error of the reader); the meta read back from the built
    message is the creator given as argument with the name, description and
    domain of the request. *)
Theorem createDeploymentMsg_meta_roundtrip
    (env : Env) (data : DeploymentData) (creator : string)
    (c : gmap string CacheEntry) :
  match outcome_of (createDeploymentMsg env data creator c) with
  | Resolved msg =>
      msg_meta msg = Some {| meta_creator := creator;
                             meta_name := data_name data;
                             meta_description := data_description data;
                             meta_domain := data_domain data |}
  | Rejected e =>
      exists file, data_file data = Some file /\
                   fileToArrayBuffer env file = Rejected e
  end.
Proof.
  unfold_run. destruct (data_file data) as [file|]; simpl.
  - destruct (fileToArrayBuffer env file) as [buffer|e] eqn:Hread; simpl.
    + reflexivity.
    + exists file. split; [reflexivity | exact Hread].
  - reflexivity.
Qed.

Example createDeploymentMsg_site1 :
  outcome_of (createDeploymentMsg (sample_env (Some "cosmos1abc") 0 "")
                (site1 (Some {| file_name := "site.zip" |})) "cosmos1abc" ∅)
  = Resolved
      (MsgCreateDeployment
         {| meta_creator := "cosmos1abc"; meta_name := "site1";
            meta_description := "first site";
            meta_domain := "site1.example.com" |}
         (Some {| payload_archive :=
                    Some {| archive_type := Zip;
                            archive_content := [x50; x4b; x03; x04] |} |})).
Proof. reflexivity. Qed.

(** C6: both builders leave the payload out when the request carries no file;
    when it carries one, the payload is an archive of type ZIP whose content
    is the bytes read from that file, and the builder is rejected only if
    reading the file is. So a built message has a payload exactly when the
    request has a file. *)
Theorem payload_iff_file
    (env : Env) (data : DeploymentData) (creator : string)
    (c : gmap string CacheEntry) :
  match data_file data with
  | None =>
      exists meta,
        outcome_of (createDeploymentMsg env data creator c)
          = Resolved (MsgCreateDeployment meta None) /\
        outcome_of (updateDeploymentMsg env data creator c)
          = Resolved (MsgUpdateDeployment meta None)
  | Some file =>
      match fileToArrayBuffer env file with
      | Resolved bytes =>
          exists meta,
            outcome_of (createDeploymentMsg env data creator c)
              = Resolved (MsgCreateDeployment meta
                  (Some {| payload_archive :=
                             Some {| archive_type := Zip;
                                     archive_content := bytes |} |})) /\
            outcome_of (updateDeploymentMsg env data creator c)
              = Resolved (MsgUpdateDeployment meta
                  (Some {| payload_archive :=
                             Some {| archive_type := Zip;
                                     archive_content := bytes |} |}))
      | Rejected e =>
          outcome_of (createDeploymentMsg env data creator c) = Rejected e /\
          outcome_of (updateDeploymentMsg env data creator c) = Rejected e
      end
  end.
Proof.
  unfold_run. destruct (data_file data) as [file|]; simpl.
  - destruct (fileToArrayBuffer env file) as [bytes|e]; simpl.
    + eexists. split; reflexivity.
    + split; reflexivity.
  - eexists. split; reflexivity.
Qed.

(** A built message carries a payload exactly when the request has a file. *)
Lemma built_payload_iff_file env data creator c msg :
  outcome_of (createDeploymentMsg env data creator c) = Resolved msg \/
  outcome_of (updateDeploymentMsg env data creator c) = Resolved msg ->
  (is_Some (msg_payload msg) <-> is_Some (data_file data)).
Proof.
  unfold_run. destruct (data_file data) as [file|]; simpl.
  - destruct (fileToArrayBuffer env file) as [bytes|e]; simpl;
      intros [H|H]; inversion H; subst; simpl; split; intros _; eauto.
  - intros [H|H]; inversion H; subst; simpl; split; intros [x Hx]; discriminate.
Qed.

(** ** The deployment URL *)

(** C7: the URL of a deployment is the scheme, "://", the name, "-", the
    address, "." and the domain, one after the other; with scheme https and
    domain example.com, "myapp" at "cosmos1abc..." is
    "https://myapp-cosmos1abc....example.com". *)
Theorem createUrl_format (scheme domain name address : string) :
  createUrl scheme domain name address
    = String.concat "" [scheme; "://"; name; "-"; address; "."; domain] /\
  createUrl "https" "example.com" "myapp" "cosmos1abc..."
    = "https://myapp-cosmos1abc....example.com".
Proof.
  split; [|reflexivity].
  unfold createUrl. simpl. reflexivity.
Qed.

(** ** The query function *)

(** C8: with a non-empty creator address in the store, the query function
    sends at most one [metas] query, and exactly one once the query client
    has been created; that query has exactly one filter, with field CREATOR,
    operator EQUAL and the address as value, and what the function resolves
    or is rejected with is the answer of the endpoint to that query. *)
Theorem list_filters_by_creator
    (env : Env) (c : gmap string CacheEntry) (address : string) :
  store_getAddress env = Resolved (Some address) ->
  address <> "" ->
  match createRPCQueryClient env (GHOSTCLOUD_RPC_TARGET env) with
  | Resolved client =>
      queries (log_of (list_metas env c))
        = [ {| req_filters := [ {| filter_field := CREATOR;
                                   filter_operator := EQUAL;
                                   filter_value := address |} ] |} ] /\
      outcome_of (list_metas env c)
        = match metas client
                  {| req_filters := [ {| filter_field := CREATOR;
                                         filter_operator := EQUAL;
                                         filter_value := address |} ] |} with
          | Resolved response => Resolved (Some response)
          | Rejected e => Rejected e
          end
  | Rejected e =>
      queries (log_of (list_metas env c)) = [] /\
      outcome_of (list_metas env c) = Rejected e
  end.
Proof.
  intros Haddr Hne.
  assert (Ht : truthy_string (Some address) = Some address)
    by (apply truthy_string_Some; split; [reflexivity | exact Hne]).
  unfold_run. rewrite Haddr. simpl in *. rewrite Ht.
  destruct (createRPCQueryClient env (GHOSTCLOUD_RPC_TARGET env))
    as [client|e]; simpl.
  - destruct (metas client _) as [response|e]; simpl; split; reflexivity.
  - split; reflexivity.
Qed.

Lemma list_filters_by_creator_witness :
  queries (log_of (list_metas (sample_env (Some "cosmos1abc") 0 "") ∅))
    = [ {| req_filters := [ {| filter_field := CREATOR;
                               filter_operator := EQUAL;
                               filter_value := "cosmos1abc" |} ] |} ] /\
  outcome_of (list_metas (sample_env (Some "cosmos1abc") 0 "") ∅)
    = Resolved (Some {| resp_meta :=
                          [ {| meta_creator := "cosmos1abc";
                               meta_name := "site1";
                               meta_description := "";
                               meta_domain := "" |} ] |}).
Proof.
  apply (list_filters_by_creator (sample_env (Some "cosmos1abc") 0 "") ∅
           "cosmos1abc" eq_refl).
  discriminate.
Defined.

(** C9: when the store resolves no creator address ([undefined] or the empty
    string), the query function resolves with [undefined]; the address lookup
    is its only call, so no query client is created and no query is sent, and
    the cache is left as it was. *)
Theorem list_without_address
    (env : Env) (c : gmap string CacheEntry) (a : option string) :
  store_getAddress env = Resolved a ->
  a = None \/ a = Some "" ->
  list_metas env c = ([EvGetAddress], c, Resolved None) /\
  existsb is_network (log_of (list_metas env c)) = false.
Proof.
  intros Haddr Hempty. apply truthy_string_None in Hempty.
  assert (H : list_metas env c = ([EvGetAddress], c, Resolved None)).
  { unfold_run. rewrite Haddr. simpl. rewrite Hempty. reflexivity. }
  rewrite H. split; reflexivity.
Qed.

Lemma list_without_address_witness :
  list_metas (sample_env None 0 "") ∅ = ([EvGetAddress], ∅, Resolved None) /\
  existsb is_network (log_of (list_metas (sample_env None 0 "") ∅)) = false.
Proof.
  apply (list_without_address (sample_env None 0 "") ∅ None eq_refl).
  left. reflexivity.
Defined.

(** Behind an endpoint that keeps to the filters, every item the query
    function returns was created by the address of the store. *)
Lemma list_scoped_to_creator env c address client response m :
  store_getAddress env = Resolved (Some address) ->
  address <> "" ->
  createRPCQueryClient env (GHOSTCLOUD_RPC_TARGET env) = Resolved client ->
  honours_filters client ->
  outcome_of (list_metas env c) = Resolved (Some response) ->
  In m (resp_meta response) ->
  meta_creator m = address.
Proof.
  intros Haddr Hne Hclient Hhon Hout Hin.
  assert (Ht : truthy_string (Some address) = Some address)
    by (apply truthy_string_Some; split; [reflexivity | exact Hne]).
  revert Hout. unfold_run. rewrite Haddr. simpl in *. rewrite Ht, Hclient. simpl.
  destruct (metas client _) as [r|e] eqn:Hq; simpl; intros Hout;
    inversion Hout; subst r.
  specialize (Hhon _ _ Hq m _ Hin (or_introl eq_refl)).
  apply String.eqb_eq in Hhon. exact Hhon.
Qed.

(** ** Pagination *)

Section PaginationFacts.

Context (pageSize : positive).

Lemma pageCount_nonneg (fetched : list Meta) : (0 <= pageCount pageSize fetched)%Z.
Proof.
  unfold pageCount. apply Z.div_pos; lia.
Qed.

Lemma clampPage_range (total page : Z) :
  (1 <= clampPage total page)%Z /\
  (1 <= total -> clampPage total page <= total)%Z.
Proof. unfold clampPage. lia. Qed.

Lemma clampPage_in_range (total page : Z) :
  (1 <= page <= total)%Z -> clampPage total page = page.
Proof. unfold clampPage. lia. Qed.

(** A request within the bounds is served as asked. *)
Lemma listDeployments_in_range (fetched : list Meta) (page : Z) :
  (1 <= page <= pageCount pageSize fetched)%Z ->
  listDeployments pageSize fetched page =
    {| page_items := pageContent pageSize fetched page;
       currentPageNumber := page;
       totalPageCount := pageCount pageSize fetched |}.
Proof.
  intros H. unfold listDeployments. rewrite clampPage_in_range by exact H.
  reflexivity.
Qed.

(** The first page holds the first [pageSize] items. *)
Lemma first_page_content (fetched : list Meta) :
  page_items (listDeployments pageSize fetched 1)
    = take (Pos.to_nat pageSize) fetched.
Proof.
  unfold listDeployments, pageContent, clampPage; simpl.
  pose proof (pageCount_nonneg fetched) as Hn.
  replace (Z.max 1 (Z.min 1 (pageCount pageSize fetched))) with 1%Z by lia.
  reflexivity.
Qed.

(** With nothing fetched there is no page, and every request is answered
    with an empty first page. *)
Lemma listDeployments_empty (page : Z) :
  listDeployments pageSize [] page =
    {| page_items := []; currentPageNumber := 1; totalPageCount := 0 |}.
Proof.
  unfold listDeployments, pageContent, clampPage, pageCount.
  rewrite Z.div_small by (simpl length; lia).
  rewrite drop_nil, take_nil. f_equal. lia.
Qed.

(** The last page of a non-empty result set holds at least one item. *)
Lemma last_page_nonempty (fetched : list Meta) :
  fetched <> [] ->
  page_items (listDeployments pageSize fetched (pageCount pageSize fetched))
    <> [].
Proof.
  intros Hne.
  assert (Hlen : (1 <= Z.of_nat (length fetched))%Z)
    by (destruct fetched; [congruence | simpl; lia]).
  assert (Hle : (Z.pos pageSize * pageCount pageSize fetched
                 <= Z.of_nat (length fetched) + Z.pos pageSize - 1)%Z)
    by (unfold pageCount; apply Z.mul_div_le; lia).
  assert (H1 : (1 <= pageCount pageSize fetched)%Z).
  { unfold pageCount. apply Z.div_le_lower_bound; lia. }
  rewrite listDeployments_in_range by lia. simpl. unfold pageContent.
  assert (Hk : Z.to_nat ((pageCount pageSize fetched - 1) * Z.pos pageSize)
               < length fetched) by nia.
  destruct (drop _ fetched) as [|m rest] eqn:Hdrop.
  - apply (f_equal length) in Hdrop. rewrite length_drop in Hdrop.
    simpl in Hdrop. lia.
  - destruct (Pos2Nat.is_succ pageSize) as [n Hn]. rewrite Hn. discriminate.
Qed.

(** An arrow that the dashboard leaves enabled moves by exactly one page. *)
Lemma enabled_arrow_moves (fetched : list Meta) (currentPage : Z)
    (direction : Direction) :
  (1 <= currentPage <= pageCount pageSize fetched)%Z ->
  match direction with
  | prev => previousDisabled currentPage
  | next => nextDisabled currentPage (pageCount pageSize fetched)
  end = false ->
  currentPageNumber (handlePageClick pageSize fetched currentPage direction)
    = match direction with
      | prev => (currentPage - 1)%Z
      | next => (currentPage + 1)%Z
      end.
Proof.
  unfold previousDisabled, nextDisabled, handlePageClick.
  intros Hrange Hen. destruct direction; apply Z.eqb_neq in Hen;
    rewrite listDeployments_in_range by lia; reflexivity.
Qed.

End PaginationFacts.

(** C4: for every fetched result set, a page number below 1 is answered as
    page 1 is and a page number above the page count as the last page is; the
    function is total, so a page number out of range raises nothing. *)
Theorem listDeployments_clamps
    (pageSize : positive) (fetched : list Meta) (page : Z) :
  (page < 1 \/ pageCount pageSize fetched < page)%Z ->
  listDeployments pageSize fetched page
    = listDeployments pageSize fetched
        (if (page <? 1)%Z then 1%Z else pageCount pageSize fetched).
Proof.
  intros Hout. unfold listDeployments.
  pose proof (pageCount_nonneg pageSize fetched) as Hn.
  assert (Hclamp :
    clampPage (pageCount pageSize fetched) page
    = clampPage (pageCount pageSize fetched)
        (if (page <? 1)%Z then 1%Z else pageCount pageSize fetched)).
  { unfold clampPage. destruct (Z.ltb_spec page 1); lia. }
  rewrite Hclamp. reflexivity.
Qed.

Lemma listDeployments_clamps_witness :
  listDeployments 2 three_sites 7
    = {| page_items := [site "site3"];
         currentPageNumber := 2;
         totalPageCount := 2 |} /\
  listDeployments 2 three_sites (-4)
    = {| page_items := [site "site1"; site "site2"];
         currentPageNumber := 1;
         totalPageCount := 2 |}.
Proof.
  split.
  - rewrite (listDeployments_clamps 2 three_sites 7) by (vm_compute; right; reflexivity).
    reflexivity.
  - rewrite (listDeployments_clamps 2 three_sites (-4)) by (vm_compute; left; reflexivity).
    reflexivity.
Defined.

(** ** What is broadcast, and in which order *)

(** Every transaction a write operation broadcasts is signed by the non-empty
    address of the store, is sent with the fixed fee and the memo of the
    request (none for a removal), and holds exactly one message: of the kind
    of the operation, naming the signer as creator and the deployment of the
    request. *)
Theorem broadcast_signed_by_creator
    (env : Env) (w : Write) (c : gmap string CacheEntry)
    (signer : string) (msgs : list Msg) (f : StdFee) (memo : option string)
    (response : outcome DeliverTxResponse) :
  In (EvSignAndBroadcast signer msgs f memo response)
     (log_of (execute env w c)) ->
  store_getAddress env = Resolved (Some signer) /\
  signer <> "" /\
  f = {| fee_amount := [ {| coin_denom := "token"; coin_amount := "1" |} ];
         fee_gas := "100000000" |} /\
  memo = write_memo w /\
  exists msg, msgs = [msg] /\ msg_for w msg = true /\
              msg_creator msg = signer /\ Some (msg_name msg) = write_name w.
Proof.
  destruct w as [[data|]|[data|]|name]; simpl; unfold_run; simpl;
    try (intros []);
    repeat case_step; find_broadcast;
    match goal with
    | Ha : store_getAddress env = Resolved ?a,
      Ht : truthy_string ?a = Some _ |- _ =>
        apply truthy_string_Some in Ht; destruct Ht as [-> Hne]
    end;
    (split; [reflexivity|]); (split; [assumption|]);
    (split; [reflexivity|]); (split; [reflexivity|]);
    eexists; repeat split; reflexivity.
Qed.

Lemma broadcast_signed_by_creator_witness :
  store_getAddress (sample_env (Some "cosmos1abc") 5 "not found")
    = Resolved (Some "cosmos1abc") /\
  "cosmos1abc" <> "".
Proof.
  destruct (broadcast_signed_by_creator
              (sample_env (Some "cosmos1abc") 5 "not found")
              (RemoveDeployment "site1") fresh_cache
              "cosmos1abc" [MsgRemoveDeployment "cosmos1abc" "site1"]
              fee None (Resolved (sample_response 5 "not found")))
    as (Ha & Hne & _).
  - vm_compute. do 4 right. left. reflexivity.
  - split; [exact Ha | exact Hne].
Defined.

(** A write that broadcasts has made its calls in one fixed order, each at
    most once: address, private key, wallet from the decoded key and the
    configured prefix, signing client at the configured endpoint, the attached
    file if there is one, the broadcast, and last the invalidation of "metas"
    if the answer carried code zero. *)
Theorem broadcast_transcript
    (env : Env) (w : Write) (c : gmap string CacheEntry)
    (signer : string) (msgs : list Msg) (f : StdFee) (memo : option string)
    (response : outcome DeliverTxResponse) :
  In (EvSignAndBroadcast signer msgs f memo response)
     (log_of (execute env w c)) ->
  exists key,
    store_getPrivateKey env = Resolved key /\
    log_of (execute env w c) =
      [ EvGetAddress; EvGetPrivateKey;
        EvWalletFromKey (Buffer_from_hex key) (GHOSTCLOUD_ADDRESS_PREFIX env);
        EvSigningClient (GHOSTCLOUD_RPC_TARGET env) ]
      ++ match write_file w with
         | Some file => [EvFileToArrayBuffer file]
         | None => []
         end
      ++ [EvSignAndBroadcast signer msgs f memo response]
      ++ (if is_accepted (EvSignAndBroadcast signer msgs f memo response)
          then [EvInvalidateQueries "metas"] else []).
Proof.
  destruct w as [[data|]|[data|]|name]; simpl; unfold_run; simpl;
    try (intros []);
    repeat case_step; find_broadcast;
    (eexists; split; [reflexivity|]); simpl;
    first
      [ reflexivity
      | congruence
      | match goal with
        | H : negb ?b = _ |- _ => destruct b; simpl in *; congruence
        end ].
Qed.

Lemma broadcast_transcript_witness :
  exists key,
    store_getPrivateKey (sample_env (Some "cosmos1abc") 0 "") = Resolved key /\
    length (log_of (execute (sample_env (Some "cosmos1abc") 0 "")
                            (CreateDeployment (Some (site1 (Some site_zip))))
                            fresh_cache)) = 7.
Proof.
  destruct (broadcast_transcript
              (sample_env (Some "cosmos1abc") 0 "")
              (CreateDeployment (Some (site1 (Some site_zip)))) fresh_cache
              "cosmos1abc"
              [MsgCreateDeployment
                 {| meta_creator := "cosmos1abc"; meta_name := "site1";
                    meta_description := "first site";
                    meta_domain := "site1.example.com" |}
                 (Some {| payload_archive :=
                            Some {| archive_type := Zip;
                                    archive_content := [x50; x4b; x03; x04] |} |})]
              fee (Some "") (Resolved (sample_response 0 "")))
    as (key & Hkey & Hlog).
  - vm_compute. do 5 right. left. reflexivity.
  - exists key. split; [exact Hkey|]. rewrite Hlog. reflexivity.
Defined.

(** ** Failures before and during the broadcast *)

(** When the broadcast itself is rejected (the transaction never got an
    answer), the write is rejected with that very error, not with a message
    about an error code; nothing is invalidated and the cache is as it was. *)
Theorem transport_failure_passed_on
    (env : Env) (w : Write) (c : gmap string CacheEntry)
    (signer : string) (msgs : list Msg) (f : StdFee) (memo : option string)
    (e : Error) :
  In (EvSignAndBroadcast signer msgs f memo (Rejected e))
     (log_of (execute env w c)) ->
  outcome_of (execute env w c) = Rejected e /\
  invalidations "metas" (log_of (execute env w c)) = 0 /\
  cache_of (execute env w c) = c.
Proof.
  destruct w as [[data|]|[data|]|name]; simpl; unfold_run; simpl;
    try (intros []);
    repeat case_step; find_broadcast; repeat split; reflexivity.
Qed.

Lemma transport_failure_passed_on_witness :
  outcome_of (execute (failing_env true true true false)
                      (RemoveDeployment "site1") fresh_cache)
    = Rejected "socket hang up".
Proof.
  apply (transport_failure_passed_on
           (failing_env true true true false) (RemoveDeployment "site1")
           fresh_cache "cosmos1abc" [MsgRemoveDeployment "cosmos1abc" "site1"]
           fee None "socket hang up").
  vm_compute. do 4 right. left. reflexivity.
Defined.

(** When the wallet cannot be made from the key, the write is rejected with
    the error of the wallet and no call reaches the RPC endpoint. *)
Theorem wallet_failure_stops_write
    (env : Env) (w : Write) (c : gmap string CacheEntry)
    (pk : list Byte.byte) (prefix : string) (e : Error) :
  In (EvWalletFromKey pk prefix) (log_of (execute env w c)) ->
  DirectSecp256k1Wallet_fromKey env pk prefix = Rejected e ->
  outcome_of (execute env w c) = Rejected e /\
  existsb is_network (log_of (execute env w c)) = false /\
  cache_of (execute env w c) = c.
Proof.
  destruct w as [[data|]|[data|]|name]; simpl; unfold_run; simpl;
    try (intros []);
    repeat case_step; find_broadcast; failure_found.
Qed.

Lemma wallet_failure_stops_write_witness :
  outcome_of (execute (failing_env false true true true)
                      (UpdateDeployment (Some (site1 None))) fresh_cache)
    = Rejected "invalid private key".
Proof.
  apply (wallet_failure_stops_write
           (failing_env false true true true)
           (UpdateDeployment (Some (site1 None))) fresh_cache
           [x00; xff] "gc" "invalid private key").
  - vm_compute. do 2 right. left. reflexivity.
  - reflexivity.
Defined.

(** When the signing client cannot be created at the endpoint, the write is
    rejected with the error of the connection; no file is read, nothing is
    broadcast and the cache is as it was. *)
Theorem connection_failure_stops_write
    (env : Env) (w : Write) (c : gmap string CacheEntry)
    (rpcEndpoint : string) (e : Error) :
  In (EvSigningClient rpcEndpoint) (log_of (execute env w c)) ->
  (forall signer, getSigningGhostcloudClient env rpcEndpoint signer = Rejected e) ->
  outcome_of (execute env w c) = Rejected e /\
  existsb is_file_read (log_of (execute env w c)) = false /\
  existsb is_broadcast (log_of (execute env w c)) = false /\
  cache_of (execute env w c) = c.
Proof.
  destruct w as [[data|]|[data|]|name]; simpl; unfold_run; simpl;
    try (intros []);
    repeat case_step; find_broadcast; failure_found.
Qed.

Lemma connection_failure_stops_write_witness :
  outcome_of (execute (failing_env true false true true)
                      (CreateDeployment (Some (site1 (Some site_zip))))
                      fresh_cache)
    = Rejected "connect ECONNREFUSED".
Proof.
  apply (connection_failure_stops_write
           (failing_env true false true true)
           (CreateDeployment (Some (site1 (Some site_zip)))) fresh_cache
           "http://localhost:26657" "connect ECONNREFUSED").
  - vm_compute. do 3 right. left. reflexivity.
  - intros signer. reflexivity.
Defined.

(** When the attached file cannot be read, the write is rejected with the
    error of the reader and nothing is broadcast; by then the signing client
    has already been created at the endpoint. *)
Theorem unreadable_file_stops_write
    (env : Env) (w : Write) (c : gmap string CacheEntry)
    (file : File) (e : Error) :
  In (EvFileToArrayBuffer file) (log_of (execute env w c)) ->
  fileToArrayBuffer env file = Rejected e ->
  outcome_of (execute env w c) = Rejected e /\
  existsb is_broadcast (log_of (execute env w c)) = false /\
  In (EvSigningClient (GHOSTCLOUD_RPC_TARGET env)) (log_of (execute env w c)) /\
  cache_of (execute env w c) = c.
Proof.
  destruct w as [[data|]|[data|]|name]; simpl; unfold_run; simpl;
    try (intros []);
    repeat case_step; find_broadcast; failure_found.
Qed.

Lemma unreadable_file_stops_write_witness :
  outcome_of (execute (failing_env true true false true)
                      (CreateDeployment (Some (site1 (Some site_zip))))
                      fresh_cache)
    = Rejected "file could not be read".
Proof.
  apply (unreadable_file_stops_write
           (failing_env true true false true)
           (CreateDeployment (Some (site1 (Some site_zip)))) fresh_cache
           site_zip "file could not be read").
  - vm_compute. do 4 right. left. reflexivity.
  - reflexivity.
Defined.

(** A write reads a file only if its request carries one, reads that file
    and reads it once; a removal reads none. *)
Theorem only_the_attached_file_is_read
    (env : Env) (w : Write) (c : gmap string CacheEntry) (file : File) :
  In (EvFileToArrayBuffer file) (log_of (execute env w c)) ->
  write_file w = Some file /\
  length (List.filter is_file_read (log_of (execute env w c))) = 1.
Proof.
  destruct w as [[data|]|[data|]|name]; simpl; unfold_run; simpl;
    try (intros []);
    repeat case_step; find_broadcast; failure_found.
Qed.

Lemma only_the_attached_file_is_read_witness :
  write_file (UpdateDeployment (Some (site1 (Some site_zip)))) = Some site_zip.
Proof.
  apply (only_the_attached_file_is_read
           (failing_env true true true true)
           (UpdateDeployment (Some (site1 (Some site_zip)))) fresh_cache
           site_zip).
  vm_compute. do 4 right. left. reflexivity.
Defined.

(** ** What a write does to the cache *)




(** ** More on the query function *)

(** The query function only reads: it leaves the cache as it was, calls
    nothing but the address lookup, the query client factory and the [metas]
    query (so it never asks for the private key, never signs and never
    invalidates), and sends at most one query. *)
Theorem list_only_reads (env : Env) (c : gmap string CacheEntry) :
  cache_of (list_metas env c) = c /\
  forallb is_read_call (log_of (list_metas env c)) = true /\
  length (queries (log_of (list_metas env c))) <= 1.
Proof.
  unfold_run; simpl. repeat case_step; repeat split; simpl; auto.
Qed.

(** The query function resolves with [undefined] exactly when the store
    resolves no address ([undefined] or the empty string): with an address it
    resolves with the answer of the endpoint or is rejected. *)
Theorem list_undefined_iff_no_address (env : Env) (c : gmap string CacheEntry) :
  outcome_of (list_metas env c) = Resolved None <->
  exists a, store_getAddress env = Resolved a /\ (a = None \/ a = Some "").
Proof.
  split.
  - unfold_run; simpl. repeat case_step; intros H; try discriminate H.
    eexists. split; [reflexivity|]. apply truthy_string_None. assumption.
  - intros (a & Ha & Hempty). apply truthy_string_None in Hempty.
    unfold_run. rewrite Ha. simpl. rewrite Hempty. reflexivity.
Qed.

(** The query function raises no error of its own: when it is rejected, the
    error is the one the address lookup, the query client factory or the
    [metas] query of the created client was rejected with. *)
Theorem list_rejected_by_collaborator
    (env : Env) (c : gmap string CacheEntry) (e : Error) :
  outcome_of (list_metas env c) = Rejected e ->
  store_getAddress env = Rejected e \/
  createRPCQueryClient env (GHOSTCLOUD_RPC_TARGET env) = Rejected e \/
  exists client request,
    createRPCQueryClient env (GHOSTCLOUD_RPC_TARGET env) = Resolved client /\
    In (EvMetas request) (log_of (list_metas env c)) /\
    metas client request = Rejected e.
Proof.
  unfold_run; simpl. repeat case_step; intros H; inversion H; subst; auto.
  right; right. eexists _, _. split; [reflexivity|].
  split; [|eassumption]. simpl. auto.
Qed.

Lemma list_rejected_by_collaborator_witness :
  store_getAddress (failing_env true false true true)
    = Rejected "connect ECONNREFUSED" \/
  createRPCQueryClient (failing_env true false true true)
      (GHOSTCLOUD_RPC_TARGET (failing_env true false true true))
    = Rejected "connect ECONNREFUSED" \/
  exists client request,
    createRPCQueryClient (failing_env true false true true)
        (GHOSTCLOUD_RPC_TARGET (failing_env true false true true))
      = Resolved client /\
    In (EvMetas request) (log_of (list_metas (failing_env true false true true) ∅)) /\
    metas client request = Rejected "connect ECONNREFUSED".
Proof.
  apply (list_rejected_by_collaborator
           (failing_env true false true true) ∅ "connect ECONNREFUSED").
  reflexivity.
Defined.

(** ** Where the rejections of a write come from *)



(** ** Deployment URLs and the table *)

Lemma append_cons (ch : ascii) (a b : string) :
  String ch a +:+ b = String ch (a +:+ b).
Proof. reflexivity. Qed.

Lemma append_assoc (a b c : string) : (a +:+ b) +:+ c = a +:+ (b +:+ c).
Proof.
  induction a as [|ch a IH]; [reflexivity|].
  rewrite !append_cons, IH. reflexivity.
Qed.

Lemma length_append (a b : string) :
  String.length (a +:+ b) = String.length a + String.length b.
Proof.
  induction a as [|ch a IH]; [reflexivity|].
  rewrite append_cons. simpl. rewrite IH. reflexivity.
Qed.

Lemma append_inv_tail (a b t : string) : a +:+ t = b +:+ t -> a = b.
Proof.
  revert b. induction a as [|ch a IH]; intros [|ch' b] H.
  - reflexivity.
  - apply (f_equal String.length) in H.
    rewrite append_cons in H. simpl in H. rewrite !length_append in H.
    simpl in H. lia.
  - apply (f_equal String.length) in H.
    rewrite append_cons in H. simpl in H. rewrite !length_append in H.
    simpl in H. lia.
  - rewrite !append_cons in H. injection H as -> H. f_equal. apply IH. exact H.
Qed.

Lemma append_inv_head (s a b : string) : s +:+ a = s +:+ b -> a = b.
Proof.
  induction s as [|ch s IH]; intros H; [exact H|].
  rewrite !append_cons in H. injection H as H. apply IH. exact H.
Qed.

Lemma createUrl_inj_name (scheme domain address name1 name2 : string) :
  createUrl scheme domain name1 address = createUrl scheme domain name2 address ->
  name1 = name2.
Proof.
  unfold createUrl. intros H.
  apply append_inv_head, append_inv_head in H.
  apply append_inv_tail in H. exact H.
Qed.

Lemma createUrl_inj_address (scheme domain name address1 address2 : string) :
  createUrl scheme domain name address1 = createUrl scheme domain name address2 ->
  address1 = address2.
Proof.
  unfold createUrl. intros H.
  do 4 apply append_inv_head in H.
  apply append_inv_tail in H. exact H.
Qed.

(** For one address, two deployments have the same URL only if they have the
    same name; for one name, two addresses give the same URL only if they are
    the same address. *)
Theorem createUrl_injective (scheme domain : string) (name1 name2 : string)
    (address1 address2 : string) :
  (createUrl scheme domain name1 address1 = createUrl scheme domain name2 address1
   <-> name1 = name2) /\
  (createUrl scheme domain name1 address1 = createUrl scheme domain name1 address2
   <-> address1 = address2).
Proof.
  split; split; intros H; try (subst; reflexivity).
  - eapply createUrl_inj_name; exact H.
  - eapply createUrl_inj_address; exact H.
Qed.

(** The URL does not tell name and address apart: a name that ends in
    "-x" at address a has the URL of the name without that ending at
    address "x-a". *)
Theorem createUrl_hyphen_collision (scheme domain name x address : string) :
  createUrl scheme domain (name +:+ "-" +:+ x) address
    = createUrl scheme domain name (x +:+ "-" +:+ address).
Proof.
  unfold createUrl. rewrite !append_assoc. reflexivity.
Qed.

Lemma href_injective (scheme domain address name1 name2 : string) :
  createUrl scheme domain name1 address +:+ "/index.html"
    = createUrl scheme domain name2 address +:+ "/index.html" ->
  name1 = name2.
Proof.
  intros H. apply append_inv_tail in H.
  eapply createUrl_inj_name; exact H.
Qed.

(** In the table, deployments with different names have different link
    targets: if no name occurs twice in the data, no target does. *)
Theorem distinct_names_distinct_links
    (scheme domain : string) (truncateAddress : string -> Z -> string)
    (metas : QueryMetasResponse) (address : string) :
  NoDup (List.map meta_name (resp_meta metas)) ->
  NoDup (List.map row_href
           (table_rows scheme domain truncateAddress metas address)).
Proof.
  unfold table_rows. rewrite List.map_map. simpl.
  induction (resp_meta metas) as [|meta rest IH]; simpl; intros Hnd.
  - constructor.
  - inversion Hnd as [|? ? Hnotin Hrest]; subst. constructor.
    + intros Hin. apply Hnotin.
      apply list_elem_of_In, in_map_iff in Hin.
      destruct Hin as (meta' & Heq & Hin').
      apply href_injective in Heq. rewrite <- Heq.
      apply list_elem_of_In, in_map. exact Hin'.
    + apply IH. exact Hrest.
Qed.

Lemma distinct_names_distinct_links_witness :
  NoDup (List.map row_href
           (table_rows "https" "example.com" (fun a _ => a)
                       {| resp_meta := three_sites |} "cosmos1abc")).
Proof.
  apply (distinct_names_distinct_links "https" "example.com" (fun a _ => a)
           {| resp_meta := three_sites |} "cosmos1abc").
  simpl. repeat constructor; rewrite list_elem_of_In; simpl; intros H;
    repeat (destruct H as [H|H]; [discriminate H|]); exact H.
Defined.

(** The pagination controls are rendered exactly for more than one page, and
    then the two arrows are never disabled together; with data the table is
    rendered, without data the notice and no controls at all. *)
Theorem pager_keeps_an_arrow
    (scheme domain : string) (truncateAddress : string -> Z -> string)
    (metas : option QueryMetasResponse) (address : string)
    (currentPage pageCount : Z) :
  match Dashboard_body scheme domain truncateAddress metas address
                       currentPage pageCount with
  | DeploymentTable rows (Some pager) =>
      is_Some metas /\ (1 < pageCount)%Z /\
      pager_info pager = (currentPage, pageCount) /\
      pager_previousDisabled pager && pager_nextDisabled pager = false
  | DeploymentTable rows None => is_Some metas /\ (pageCount <= 1)%Z
  | ErrorNotice text => metas = None
  end.
Proof.
  unfold Dashboard_body, pagination, showPagination, previousDisabled,
    nextDisabled.
  destruct metas as [m|]; [|reflexivity].
  destruct (Z.ltb_spec 1 pageCount) as [Hlt|Hle]; simpl.
  - repeat split; eauto.
    destruct (Z.eqb_spec currentPage 1) as [->|]; [|reflexivity].
    rewrite andb_true_l. apply Z.eqb_neq. lia.
  - split; eauto.
Qed.

(** ** The two builders side by side *)


(** ** From the drop zone to the message *)

(** A request whose file is what a drop stored: when no file was accepted the
    message is built without payload and without reading anything; otherwise
    the payload holds the bytes of the first accepted file, and the other
    files are never read. *)
Theorem dropped_file_is_payload
    (env : Env) (data : DeploymentData) (creator : string)
    (c : gmap string CacheEntry) (field_name : string)
    (acceptedFiles : list File) :
  data_file data = (onDrop field_name acceptedFiles).2 ->
  match acceptedFiles with
  | [] =>
      log_of (createDeploymentMsg env data creator c) = [] /\
      msg_payload <$> (match outcome_of (createDeploymentMsg env data creator c)
                       with Resolved msg => Some msg | Rejected _ => None end)
        = Some None
  | first :: others =>
      log_of (createDeploymentMsg env data creator c)
        = [EvFileToArrayBuffer first] /\
      match fileToArrayBuffer env first with
      | Resolved bytes =>
          msg_payload <$> (match outcome_of
                                   (createDeploymentMsg env data creator c)
                           with Resolved msg => Some msg | Rejected _ => None end)
            = Some (Some {| payload_archive :=
                              Some {| archive_type := Zip;
                                      archive_content := bytes |} |})
      | Rejected e =>
          outcome_of (createDeploymentMsg env data creator c) = Rejected e
      end
  end.
Proof.
  unfold onDrop; simpl. intros Hfile. unfold_run. rewrite Hfile.
  destruct acceptedFiles as [|first others]; simpl.
  - split; reflexivity.
  - destruct (fileToArrayBuffer env first) as [bytes|e]; simpl;
      split; reflexivity.
Qed.

Lemma dropped_file_is_payload_witness :
  log_of (createDeploymentMsg (failing_env true true true true)
            (site1 (Some site_zip)) "cosmos1abc" ∅)
    = [EvFileToArrayBuffer site_zip].
Proof.
  apply (dropped_file_is_payload (failing_env true true true true)
           (site1 (Some site_zip)) "cosmos1abc" ∅ "file"
           [site_zip; {| file_name := "other.zip" |}]).
  reflexivity.
Defined.

(** ** The items of the user *)

Lemma filtering_client_honours (items : list Meta) :
  honours_filters (filtering_client items).
Proof.
  intros request response Hq m f Hm Hf. simpl in Hq. injection Hq as <-.
  simpl in Hm. apply List.filter_In in Hm. destruct Hm as [_ Hall].
  rewrite forallb_forall in Hall. apply Hall. exact Hf.
Qed.

Lemma list_scoped_to_creator_witness :
  meta_creator (site "site2") = "cosmos1abc".
Proof.
  apply (list_scoped_to_creator
           filtering_env ∅ "cosmos1abc"
           (filtering_client
              ({| meta_creator := "cosmos1xyz"; meta_name := "other";
                  meta_description := ""; meta_domain := "" |}
               :: three_sites))
           {| resp_meta := three_sites |} (site "site2")).
  - reflexivity.
  - discriminate.
  - reflexivity.
  - apply filtering_client_honours.
  - reflexivity.
  - right. left. reflexivity.
Defined.

(** ** When the key is read, and what a write resolves with *)

(** The private key is read only for a request that is not null and once the
    store has given a non-empty address. *)
Theorem key_read_only_with_creator
    (env : Env) (w : Write) (c : gmap string CacheEntry) :
  In EvGetPrivateKey (log_of (execute env w c)) ->
  is_Some (write_name w) /\
  exists address,
    store_getAddress env = Resolved (Some address) /\ address <> "".
Proof.
  destruct w as [[data|]|[data|]|name]; simpl; unfold_run; simpl;
    try (intros []);
    repeat case_step; find_broadcast;
    match goal with
    | Ht : truthy_string _ = Some _ |- _ =>
        apply truthy_string_Some in Ht; destruct Ht as [-> Hne]
    end;
    (split; [eauto|]); eexists; (split; [reflexivity | exact Hne]).
Qed.

Lemma key_read_only_with_creator_witness :
  exists address,
    store_getAddress (failing_env false true true true)
      = Resolved (Some address) /\ address <> "".
Proof.
  apply (key_read_only_with_creator (failing_env false true true true)
           (RemoveDeployment "site1") ∅).
  vm_compute. right. left. reflexivity.
Defined.

(** A write resolves only with an answer of the ledger: the response it
    returns is the one its broadcast was answered with, and carries code
    zero. *)
Theorem resolved_is_ledger_answer
    (env : Env) (w : Write) (c : gmap string CacheEntry)
    (response : DeliverTxResponse) :
  outcome_of (execute env w c) = Resolved response ->
  tx_code response = 0%N /\
  exists signer msgs memo,
    In (EvSignAndBroadcast signer msgs
          {| fee_amount := [ {| coin_denom := "token"; coin_amount := "1" |} ];
             fee_gas := "100000000" |}
          memo (Resolved response))
       (log_of (execute env w c)).
Proof.
  destruct w as [[data|]|[data|]|name]; simpl; unfold_run; simpl;
    repeat case_step; intros H; inversion H; subst; clear H;
    match goal with
    | H : negb ?b = false |- _ =>
        apply negb_false_iff, N.eqb_eq in H
    end;
    (split; [assumption|]); do 3 eexists; simpl; eauto 10.
Qed.

Lemma resolved_is_ledger_answer_witness :
  tx_code (sample_response 0 "") = 0%N.
Proof.
  apply (resolved_is_ledger_answer
           (sample_env (Some "cosmos1abc") 0 "")
           (CreateDeployment (Some (site1 None))) fresh_cache
           (sample_response 0 "")).
  reflexivity.
Defined.
